(** * WebP to PNG and JPEG converter (app.py): model and verified properties

    The program is one Python function, [convert_webp_to_png_and_jpeg],
    and a command-line shim.  The function computes three paths from its
    [base_filename] argument, checks that the input exists, creates the
    output folder, opens the image with Pillow and then tries, each in a
    [try]/[except] block of its own, to save it as PNG and as JPEG.

    The embedding is shallow.  Python statements that touch the outside
    (the file system, the console, Pillow) are computations of a state and
    exception monad [py] over a [World]; what Pillow and the operating
    system answer is a parameter, the class [Platform]; everything the
    script itself decides (paths, guards, handlers, the choice of the JPEG
    source) is an ordinary function. *)

From Stdlib Require Import ZArith Ascii.
From stdpp Require Import base option gmap strings list pretty.

(** ** Python [str] methods used by the script

    A [str] is modelled as a [string] of bytes (its UTF-8 encoding).  The
    only suffix the script looks for is ASCII, so matching and cutting it on
    bytes and on code points agree. *)

Module Str.

(** [s.startswith(prefix)] *)
Fixpoint startswith (s prefix : string) {struct prefix} : bool :=
  match prefix, s with
  | EmptyString, _ => true
  | String c p, String d t => if Ascii.eqb c d then startswith t p else false
  | String _ _, EmptyString => false
  end.

(** [s.endswith(suffix)] *)
Definition endswith (s suffix : string) : bool :=
  startswith (String.rev s) (String.rev suffix).

(** [s[:-k]] for a positive [k]: all but the last [k] characters, and the
    empty string when [s] has no more than [k] of them. *)
Definition drop_last (k : nat) (s : string) : string :=
  String.substring 0 (String.length s - k) s.

End Str.

(** ** [os.path.join] (posixpath, two arguments)

    [posixpath.join(a, b)]: an absolute [b] (or an empty [a]) discards [a];
    otherwise the two are glued with exactly one separator. *)

Definition os_path_join (a b : string) : string :=
  if Str.startswith b "/" || bool_decide (a = "") then b
  else if Str.endswith a "/" then a +:+ b
  else a +:+ "/" +:+ b.

(** ** Module-level constants and the three paths *)

Definition INPUT_FOLDER : string := "inputs".
Definition OUTPUT_FOLDER : string := "outputs".

(** Line 26. *)
Definition input_path (base_filename : string) : string :=
  os_path_join INPUT_FOLDER base_filename.

(** Lines 30-33. *)
Definition str_core_filename (base_filename : string) : string :=
  if Str.endswith base_filename ".webp"
  then Str.drop_last 5 base_filename
  else base_filename.

(** Lines 35-36. *)
Definition output_png_path (base_filename : string) : string :=
  os_path_join OUTPUT_FOLDER (str_core_filename base_filename +:+ ".png").

Definition output_jpg_path (base_filename : string) : string :=
  os_path_join OUTPUT_FOLDER (str_core_filename base_filename +:+ ".jpg").

(** ** Exceptions, results and the world

    An [exn] stands for an instance of a subclass of Python's [Exception]:
    what the operating system and Pillow raise, and what an [except
    Exception] clause catches. *)

Inductive exn : Type := Exn (cls : string) (msg : string).

(** [str(e)], as interpolated by the f-strings of the handlers. *)
Definition str_exn (e : exn) : string := let 'Exn _ msg := e in msg.

Inductive result (A : Type) : Type :=
| Ret (a : A)
| Raise (e : exn).
Arguments Ret {A} a.
Arguments Raise {A} e.

(** The part of the machine the script can see or change: regular files
    with their contents, directories, and the lines printed so far. *)
Record World : Type := mkWorld {
  files : gmap string (list Byte.byte);
  dirs : gset string;
  stdout : list string
}.

(** A Python statement or call: it reads and changes the world and either
    yields a value or raises. *)
Definition py (A : Type) : Type := World → result A * World.

#[global] Instance py_ret : MRet py := λ A a w, (Ret a, w).

#[global] Instance py_bind : MBind py := λ A B k m w,
  match m w with
  | (Ret a, w') => k a w'
  | (Raise e, w') => (Raise e, w')
  end.

(** A pure library call that may raise. *)
Definition lift {A} (r : result A) : py A := λ w, (r, w).

(** [try: body  except Exception as e: handler e] *)
Definition try_except {A} (body : py A) (handler : exn → py A) : py A := λ w,
  match body w with
  | (Ret a, w') => (Ret a, w')
  | (Raise e, w') => handler e w'
  end.

(** [print(line)]: here console output is a log that can always be
    appended to; [Fallible], below, is the script over a console that can
    refuse a line. *)
Definition print (line : string) : py unit := λ w,
  (Ret tt, mkWorld (files w) (dirs w) (stdout w ++ [line])).

(** What a call of [Image.save] leaves behind: the encoded bytes at the
    target path, or an exception together with whatever is then found at
    that path ([None]: no file). *)
Inductive save_outcome : Type :=
| Written (data : list Byte.byte)
| Aborted (e : exn) (residue : option (list Byte.byte)).

(** ** The platform: Pillow and the operating system

    None of this is code of the script; the class collects the answers the
    script gets from the libraries it calls.  Every operation may raise. *)

Class Platform : Type := {
  Image : Type;
  (** [img.mode] and [img.size] *)
  mode : Image → string;
  size : Image → Z * Z;
  (** [Image.new(mode, size, color)] *)
  pil_new : string → Z * Z → Z * Z * Z → result Image;
  (** [img.split()] *)
  pil_split : Image → result (list Image);
  (** [bg.paste(im, mask=mask)]: the value of [bg] afterwards *)
  pil_paste : Image → Image → Image → result Image;
  (** [img.convert(mode)] *)
  pil_convert : Image → string → result Image;
  (** what [Image.open] makes of the bytes of the file; Pillow may leave
      the pixel data to be decoded later, inside the operations above and
      [save], which raise if that fails *)
  pil_decode : list Byte.byte → result Image;
  (** the encoder and file writer behind [img.save(fp, format, quality)] *)
  pil_encode : Image → string → option Z → World → string → save_outcome;
  (** the operating system refusing to create a directory or to read a file *)
  os_mkdir_fault : World → string → option exn;
  os_read_fault : World → string → option exn
}.

(** ** The script *)

Section Script.
Context `{Platform}.

(** [os.path.isfile(path)] *)
Definition os_path_isfile (path : string) : py bool := λ w,
  (Ret (bool_decide (is_Some (files w !! path))), w).

(** [os.makedirs(name, exist_ok=...)] for a single-component [name]. *)
Definition os_makedirs (name : string) (exist_ok : bool) : py unit := λ w,
  match os_mkdir_fault w name with
  | Some e => (Raise e, w)
  | None =>
      if bool_decide (name ∈ dirs w) then
        if exist_ok then (Ret tt, w)
        else (Raise (Exn "FileExistsError" name), w)
      else if bool_decide (is_Some (files w !! name)) then
        (Raise (Exn "FileExistsError" name), w)
      else (Ret tt, mkWorld (files w) ({[name]} ∪ dirs w) (stdout w))
  end.

(** [Image.open(fp)]: reads, never writes. *)
Definition Image_open (fp : string) : py Image := λ w,
  match os_read_fault w fp with
  | Some e => (Raise e, w)
  | None =>
      match files w !! fp with
      | Some data => (pil_decode data, w)
      | None => (Raise (Exn "FileNotFoundError" fp), w)
      end
  end.

(** [img.save(fp, format=..., quality=...)]: whatever happens, only the
    entry of [fp] is touched.  The world is keyed by path strings and has no
    links: two spellings of one file, or a link and its target, are two
    entries. *)
Definition Image_save (img : Image) (fp format : string)
    (quality : option Z) : py unit := λ w,
  match pil_encode img format quality w fp with
  | Written data =>
      (Ret tt, mkWorld (<[fp := data]> (files w)) (dirs w) (stdout w))
  | Aborted e residue =>
      (Raise e,
       mkWorld (partial_alter (λ _, residue) fp (files w)) (dirs w) (stdout w))
  end.

(** [bands[i]] on the tuple returned by [split]. *)
Definition tuple_index (bands : list Image) (i : nat) : result Image :=
  match bands !! i with
  | Some band => Ret band
  | None => Raise (Exn "IndexError" "tuple index out of range")
  end.

(** Lines 55-59: the body of the PNG [try]. *)
Definition png_attempt (img : Image) (output_png_path : string) : py bool :=
  print ("Converting to PNG -> '" +:+ output_png_path +:+ "'");;
  Image_save img output_png_path "PNG" None;;
  print " -> PNG conversion successful.";;
  mret true.

(** Lines 53-61: the PNG block; its value is [png_success] after it
    (set to [True] by the last statement of the body, [False] before). *)
Definition png_conversion (img : Image) (output_png_path : string) : py bool :=
  try_except
    (png_attempt img output_png_path)
    (λ e_png,
     print (" !! Error converting to PNG: " +:+ str_exn e_png);;
     mret false).

(** Lines 67-79: the image handed to the JPEG encoder. *)
Definition jpeg_source (img : Image) : py Image :=
  let img_for_jpeg := img in
  if bool_decide (mode img_for_jpeg = "RGBA") then
    print "   (Input has transparency, adding white background for JPEG)";;
    bg ← lift (pil_new "RGB" (size img_for_jpeg) (255, 255, 255)%Z);
    bands ← lift (pil_split img_for_jpeg);
    alpha ← lift (tuple_index bands 3);
    lift (pil_paste bg img_for_jpeg alpha)
  else if bool_decide (mode img_for_jpeg ≠ "RGB") then
    lift (pil_convert img_for_jpeg "RGB")
  else mret img_for_jpeg.

(** Lines 66-84: the body of the JPEG [try]. *)
Definition jpeg_attempt (img : Image) (output_jpg_path : string)
    (quality : Z) : py bool :=
  print ("Converting to JPEG -> '" +:+ output_jpg_path
         +:+ "' (Quality: " +:+ pretty quality +:+ ")");;
  img_for_jpeg ← jpeg_source img;
  Image_save img_for_jpeg output_jpg_path "JPEG" (Some quality);;
  print " -> JPEG conversion successful.";;
  mret true.

(** Lines 64-86: the JPEG block; its value is [jpg_success] after it. *)
Definition jpeg_conversion (img : Image) (output_jpg_path : string)
    (quality : Z) : py bool :=
  try_except
    (jpeg_attempt img output_jpg_path quality)
    (λ e_jpg,
     print (" !! Error converting to JPEG: " +:+ str_exn e_jpg);;
     mret false).

(** ['OK' if flag else 'Failed'] *)
Definition ok_or_failed (flag : bool) : string :=
  if flag then "OK" else "Failed".

(** Line 88. *)
Definition finished_line (base_filename : string)
    (png_success jpg_success : bool) : string :=
  "Finished processing '" +:+ base_filename +:+ "'. PNG: "
  +:+ ok_or_failed png_success +:+ ", JPEG: " +:+ ok_or_failed jpg_success.

(** Lines 10-94. *)
Definition convert_webp_to_png_and_jpeg (base_filename : string)
    (quality : Z) : py bool :=
  let input_path := input_path base_filename in
  let output_png_path := output_png_path base_filename in
  let output_jpg_path := output_jpg_path base_filename in
  try_except
    (isfile ← os_path_isfile input_path;
     if negb isfile then
       print ("Error: Input file not found at '" +:+ input_path +:+ "'");;
       mret false
     else
       print ("Processing '" +:+ input_path +:+ "'...");;
       os_makedirs OUTPUT_FOLDER true;;
       img ← Image_open input_path;
       png_success ← png_conversion img output_png_path;
       jpg_success ← jpeg_conversion img output_jpg_path quality;
       print (finished_line base_filename png_success jpg_success);;
       mret true)
    (λ e,
     print ("An unexpected error occurred processing '" +:+ base_filename
            +:+ "': " +:+ str_exn e);;
     mret false).

(** The default of the parameter [quality] in the [def] line. *)
Definition quality_default : Z := 85.

(** A call [convert_webp_to_png_and_jpeg(base_filename[, quality])]. *)
Definition call_convert (base_filename : string) (quality : option Z) : py bool :=
  convert_webp_to_png_and_jpeg base_filename (default quality_default quality).

(** ** The command line (lines 97-120)

    [argparse] is modelled on command lines it accepts: [-f] is present
    and [-q], when present, is an integer. *)

Record Namespace : Type := mkNamespace {
  args_filename : string;
  args_quality : Z
}.

Definition parse_args (filename : string) (quality : option Z) : Namespace :=
  {| args_filename := filename; args_quality := default 100%Z quality |}.

Definition main (filename : string) (quality : option Z) : py unit :=
  let args := parse_args filename quality in
  if negb ((1 <=? args_quality args)%Z && (args_quality args <=? 100)%Z) then
    print "Error: Quality must be between 1 and 100."
  else
    convert_webp_to_png_and_jpeg (args_filename args) (args_quality args);;
    mret tt.

End Script.

(** ** A small executable platform

    [Raster] is a toy image library with the interface of [Platform]:
    images are lists of pixels, a file is the raster behind a three-byte
    header (bands, width, height), and, as with Pillow, the JPEG encoder
    refuses anything but mode RGB.  It is used to run the script on
    concrete worlds. *)

Module Raster.

Record image : Type := mkImage {
  im_mode : string;
  im_size : Z * Z;
  im_data : list (list Z)
}.

Definition bands_of_mode (m : string) : option nat :=
  if bool_decide (m = "L") then Some 1%nat
  else if bool_decide (m = "RGB") then Some 3%nat
  else if bool_decide (m = "RGBA") then Some 4%nat
  else None.

Definition mode_of_bands (b : Z) : option string :=
  if bool_decide (b = 1%Z) then Some "L"
  else if bool_decide (b = 3%Z) then Some "RGB"
  else if bool_decide (b = 4%Z) then Some "RGBA"
  else None.

Definition area (sz : Z * Z) : nat := Z.to_nat (sz.1 * sz.2).

Definition new (m : string) (sz : Z * Z) (color : Z * Z * Z) : result image :=
  let '(r, g, b) := color in
  if bool_decide (m = "RGB") then Ret (mkImage m sz (replicate (area sz) [r; g; b]))
  else Raise (Exn "ValueError" "unrecognized image mode").

Definition band (im : image) (i : nat) : image :=
  mkImage "L" (im_size im) ((λ px, [default 0%Z (px !! i)]) <$> im_data im).

Definition split (im : image) : result (list image) :=
  match bands_of_mode (im_mode im) with
  | Some n => Ret (band im <$> seq 0 n)
  | None => Raise (Exn "ValueError" "unrecognized image mode")
  end.

(** One sample seen through a mask value [a] in 0..255. *)
Definition blend (a under over : Z) : Z :=
  ((under * (255 - a) + over * a) / 255)%Z.

Definition paste (bg im mask : image) : result image :=
  if bool_decide (im_size bg = im_size im ∧ im_size im = im_size mask) then
    Ret (mkImage (im_mode bg) (im_size bg)
           (zip_with
              (λ under om, zip_with (blend (default 0%Z (head om.2))) under om.1)
              (im_data bg) (zip (im_data im) (im_data mask))))
  else Raise (Exn "ValueError" "images do not match").

Definition convert (im : image) (m : string) : result image :=
  if bool_decide (m = "RGB") then
    if bool_decide (im_mode im = "L") then
      Ret (mkImage m (im_size im)
             ((λ px, let v := default 0%Z (head px) in [v; v; v]) <$> im_data im))
    else Ret (mkImage m (im_size im) (take 3 <$> im_data im))
  else Raise (Exn "ValueError" "conversion not supported").

Definition Z_of_byte (b : Byte.byte) : Z := Z.of_N (Byte.to_N b).
Definition byte_of_Z (z : Z) : Byte.byte :=
  default Byte.x00 (Byte.of_N (Z.to_N z)).

Fixpoint chunks (count width : nat) (samples : list Z) : list (list Z) :=
  match count with
  | O => []
  | S count' => take width samples :: chunks count' width (drop width samples)
  end.

Definition decode (data : list Byte.byte) : result image :=
  match Z_of_byte <$> data with
  | b :: w :: h :: samples =>
      match mode_of_bands b with
      | Some m =>
          if bool_decide (Z.of_nat (length samples) = (b * w * h)%Z)
          then Ret (mkImage m (w, h) (chunks (area (w, h)) (Z.to_nat b) samples))
          else Raise (Exn "OSError" "image file is truncated")
      | None => Raise (Exn "UnidentifiedImageError" "cannot identify image file")
      end
  | _ => Raise (Exn "UnidentifiedImageError" "cannot identify image file")
  end.

Definition header (im : image) : list Z :=
  [Z.of_nat (default 0%nat (bands_of_mode (im_mode im))); (im_size im).1; (im_size im).2].

(** Saving fails when the target is a directory, and for JPEG when the
    image is not RGB; a failed save leaves no file. *)
Definition encode (im : image) (format : string) (quality : option Z)
    (w : World) (fp : string) : save_outcome :=
  if bool_decide (fp ∈ dirs w) then Aborted (Exn "IsADirectoryError" fp) None
  else if bool_decide (format = "PNG") then
    Written (byte_of_Z <$> (header im ++ concat (im_data im)))
  else if bool_decide (format = "JPEG") then
    if bool_decide (im_mode im = "RGB") then
      Written (byte_of_Z <$> (default 75%Z quality :: header im ++ concat (im_data im)))
    else Aborted (Exn "OSError" ("cannot write mode " +:+ im_mode im +:+ " as JPEG")) None
  else Aborted (Exn "KeyError" format) (files w !! fp).

#[global] Instance platform : Platform := {|
  Image := image;
  mode := im_mode;
  size := im_size;
  pil_new := new;
  pil_split := split;
  pil_paste := paste;
  pil_convert := convert;
  pil_decode := decode;
  pil_encode := encode;
  os_mkdir_fault := λ _ _, None;
  os_read_fault := λ _ _, None
|}.

(** A 1x2 RGBA image: a transparent red pixel and an opaque blue one. *)
Definition logo_bytes : list Byte.byte :=
  byte_of_Z <$> [4; 1; 2;  255; 0; 0; 0;  0; 0; 255; 255]%Z.

(** What [logo_bytes] decodes to. *)
Definition logo_image : image :=
  mkImage "RGBA" (1, 2)%Z [[255; 0; 0; 0]; [0; 0; 255; 255]]%Z.

(** A 1x1 grey image. *)
Definition grey_bytes : list Byte.byte := byte_of_Z <$> [1; 1; 1; 128]%Z.

(** A 1x1 RGB image. *)
Definition photo_bytes : list Byte.byte := byte_of_Z <$> [3; 1; 1; 10; 20; 30]%Z.

Definition world0 : World :=
  mkWorld (<["inputs/logo.webp" := logo_bytes]>
           (<["inputs/grey.webp" := grey_bytes]>
            (<["inputs/photo.webp" := photo_bytes]>
             (<["inputs/broken.webp" := [Byte.x00]]> ∅))))
          {["inputs"]} [].

(** The same, with a directory sitting where the PNG of the logo goes. *)
Definition world_png_blocked : World :=
  mkWorld (files world0) ({["outputs/logo.png"]} ∪ dirs world0) [].

(** The same, with a directory sitting where the JPEG of the logo goes. *)
Definition world_jpg_blocked : World :=
  mkWorld (files world0) ({["outputs/logo.jpg"]} ∪ dirs world0) [].



End Raster.

(** ** Vocabulary of the specification

    The stages of one conversion and the selection rule for the JPEG
    source, written after the specification's words; the theorems below
    relate them to the script. *)

#[global] Instance result_ret : MRet result := λ A a, Ret a.

#[global] Instance result_bind : MBind result := λ A B k r,
  match r with
  | Ret a => k a
  | Raise e => Raise e
  end.

(** The world after one more line on the console. *)
Definition logged (line : string) (w : World) : World :=
  mkWorld (files w) (dirs w) (stdout w ++ [line]).

Section Stages.
Context `{Platform}.

(** The world in which the output folder is created (after line 44). *)
Definition processing (base_filename : string) (w : World) : World :=
  logged ("Processing '" +:+ input_path base_filename +:+ "'...") w.

(** The line printed by the outer handler (line 93). *)
Definition unexpected_line (base_filename : string) (e : exn) : string :=
  "An unexpected error occurred processing '" +:+ base_filename
  +:+ "': " +:+ str_exn e.

(** The input exists, the output folder is there and the image is open:
    the two per-format attempts start, on [img], in world [w1]. *)
Definition reaches_attempts (base_filename : string) (w : World)
    (img : Image) (w1 : World) : Prop :=
  is_Some (files w !! input_path base_filename)
  ∧ os_makedirs OUTPUT_FOLDER true (processing base_filename w) = (Ret tt, w1)
  ∧ Image_open (input_path base_filename) w1 = (Ret img, w1).

(** The three ways a conversion ends before the attempts: the fatal
    errors of the specification's taxonomy. *)
Inductive early_failure (base_filename : string) (w : World) : Prop :=
| InputNotFound :
    files w !! input_path base_filename = None →
    early_failure base_filename w
| UnexpectedError (e : exn) (w1 : World) :
    is_Some (files w !! input_path base_filename) →
    os_makedirs OUTPUT_FOLDER true (processing base_filename w) = (Raise e, w1) →
    early_failure base_filename w
| DecodeError (e : exn) (w1 : World) :
    is_Some (files w !! input_path base_filename) →
    os_makedirs OUTPUT_FOLDER true (processing base_filename w) = (Ret tt, w1) →
    Image_open (input_path base_filename) w1 = (Raise e, w1) →
    early_failure base_filename w.

(** "A new canvas of the same width/height filled with opaque white". *)
Definition white_canvas (img : Image) : result Image :=
  pil_new "RGB" (size img) (255, 255, 255)%Z.

(** "Its own alpha channel": the fourth band. *)
Definition alpha_channel (img : Image) : result Image :=
  bands ← pil_split img; tuple_index bands 3.

(** "Composite DecodedImage onto it using its own alpha channel as the
    blend mask". *)
Definition composite_on_white (img : Image) : result Image :=
  canvas ← white_canvas img;
  alpha ← alpha_channel img;
  pil_paste canvas img alpha.

(** The three-way rule of step 5. *)
Inductive jpeg_rule (img : Image) : result Image → Prop :=
| rule_alpha :
    mode img = "RGBA" → jpeg_rule img (composite_on_white img)
| rule_convert :
    mode img ≠ "RGBA" → mode img ≠ "RGB" →
    jpeg_rule img (pil_convert img "RGB")
| rule_plain :
    mode img = "RGB" → jpeg_rule img (Ret img).

(** What one JPEG attempt on source [r] amounts to, from the world [w0] in
    which the encoder is called: the encoder's verdict turned into the
    flag, or the failure of the selection itself. *)
Definition jpeg_encoded (r : result Image) (output_jpg_path : string)
    (quality : Z) (w0 : World) : result bool * World :=
  match r with
  | Ret src =>
      match pil_encode src "JPEG" (Some quality) w0 output_jpg_path with
      | Written data =>
          (Ret true,
           logged " -> JPEG conversion successful."
             (mkWorld (<[output_jpg_path := data]> (files w0)) (dirs w0) (stdout w0)))
      | Aborted e residue =>
          (Ret false,
           logged (" !! Error converting to JPEG: " +:+ str_exn e)
             (mkWorld (partial_alter (λ _, residue) output_jpg_path (files w0))
                (dirs w0) (stdout w0)))
      end
  | Raise e => (Ret false, logged (" !! Error converting to JPEG: " +:+ str_exn e) w0)
  end.

End Stages.

(** ** A platform that decodes lazily

    Pillow's [Image.open] identifies the file and reads its header; the
    pixel data are decoded later, by [load], which [save], [split],
    [convert] and [paste] call first.  [LazyRaster] is [Raster] with that
    behaviour: a file with a good header and too few samples opens, and
    fails only where it is loaded. *)

Module LazyRaster.
Import Raster.

(** [Image.open]: the three-byte header decides; the samples are taken as
    they come. *)
Definition open_header (data : list Byte.byte) : result image :=
  match Z_of_byte <$> data with
  | b :: w :: h :: samples =>
      match mode_of_bands b with
      | Some m => Ret (mkImage m (w, h) (chunks (area (w, h)) (Z.to_nat b) samples))
      | None => Raise (Exn "UnidentifiedImageError" "cannot identify image file")
      end
  | _ => Raise (Exn "UnidentifiedImageError" "cannot identify image file")
  end.

(** [img.load()]: fails when the file held too few samples. *)
Definition load (im : image) : result unit :=
  if bool_decide (length (concat (im_data im))
                  = (default 0 (bands_of_mode (im_mode im)) * area (im_size im))%nat)
  then Ret tt
  else Raise (Exn "OSError" "image file is truncated").


(** [save] loads the image before it opens the target, so a failing load
    leaves the target as it was. *)
Definition encode_loaded (im : image) (format : string) (quality : option Z)
    (w : World) (fp : string) : save_outcome :=
  match load im with
  | Raise e => Aborted e (files w !! fp)
  | Ret _ => encode im format quality w fp
  end.

Definition platform : Platform := {|
  Image := image;
  mode := im_mode;
  size := im_size;
  pil_new := new;
  pil_split := λ im, load im;; split im;
  pil_paste := λ bg im mask, load im;; paste bg im mask;
  pil_convert := λ im m, load im;; convert im m;
  pil_decode := open_header;
  pil_encode := encode_loaded;
  os_mkdir_fault := λ _ _, None;
  os_read_fault := λ _ _, None
|}.



End LazyRaster.

(** ** The script with a console that can refuse

    Above, [print] always succeeds, which is all the properties about
    return values, files and directories need.  Python's [print] can raise
    (a name the console encoding cannot represent, a closed stream), and the
    prints of the [except] clauses stand under no [try] of their own.  This
    module is the same script, statement by statement, over a [print] that
    asks the console first. *)

(** [console_fault w line] is the exception, if any, that writing [line]
    to standard output raises. *)
Class Console : Type := {
  console_fault : World → string → option exn
}.

Module Fallible.

Section Script.
Context `{Platform} `{Console}.

(** [print(line)]: a refused line is not written. *)
Definition print (line : string) : py unit := λ w,
  match console_fault w line with
  | Some e => (Raise e, w)
  | None => (Ret tt, logged line w)
  end.

(** Lines 55-59. *)
Definition png_attempt (img : Image) (output_png_path : string) : py bool :=
  print ("Converting to PNG -> '" +:+ output_png_path +:+ "'");;
  Image_save img output_png_path "PNG" None;;
  print " -> PNG conversion successful.";;
  mret true.

(** Lines 53-61. *)
Definition png_conversion (img : Image) (output_png_path : string) : py bool :=
  try_except
    (png_attempt img output_png_path)
    (λ e_png,
     print (" !! Error converting to PNG: " +:+ str_exn e_png);;
     mret false).

(** Lines 67-79. *)
Definition jpeg_source (img : Image) : py Image :=
  let img_for_jpeg := img in
  if bool_decide (mode img_for_jpeg = "RGBA") then
    print "   (Input has transparency, adding white background for JPEG)";;
    bg ← lift (pil_new "RGB" (size img_for_jpeg) (255, 255, 255)%Z);
    bands ← lift (pil_split img_for_jpeg);
    alpha ← lift (tuple_index bands 3);
    lift (pil_paste bg img_for_jpeg alpha)
  else if bool_decide (mode img_for_jpeg ≠ "RGB") then
    lift (pil_convert img_for_jpeg "RGB")
  else mret img_for_jpeg.

(** Lines 66-84. *)
Definition jpeg_attempt (img : Image) (output_jpg_path : string)
    (quality : Z) : py bool :=
  print ("Converting to JPEG -> '" +:+ output_jpg_path
         +:+ "' (Quality: " +:+ pretty quality +:+ ")");;
  img_for_jpeg ← jpeg_source img;
  Image_save img_for_jpeg output_jpg_path "JPEG" (Some quality);;
  print " -> JPEG conversion successful.";;
  mret true.

(** Lines 64-86. *)
Definition jpeg_conversion (img : Image) (output_jpg_path : string)
    (quality : Z) : py bool :=
  try_except
    (jpeg_attempt img output_jpg_path quality)
    (λ e_jpg,
     print (" !! Error converting to JPEG: " +:+ str_exn e_jpg);;
     mret false).

(** Lines 38-89: the body of the outer [try], on the paths of lines 26-36. *)
Definition convert_body (base_filename : string) (quality : Z) : py bool :=
  let input_path := input_path base_filename in
  let output_png_path := output_png_path base_filename in
  let output_jpg_path := output_jpg_path base_filename in
  isfile ← os_path_isfile input_path;
  if negb isfile then
    print ("Error: Input file not found at '" +:+ input_path +:+ "'");;
    mret false
  else
    print ("Processing '" +:+ input_path +:+ "'...");;
    os_makedirs OUTPUT_FOLDER true;;
    img ← Image_open input_path;
    png_success ← png_conversion img output_png_path;
    jpg_success ← jpeg_conversion img output_jpg_path quality;
    print (finished_line base_filename png_success jpg_success);;
    mret true.

(** Lines 10-94. *)
Definition convert_webp_to_png_and_jpeg (base_filename : string)
    (quality : Z) : py bool :=
  try_except
    (convert_body base_filename quality)
    (λ e,
     print ("An unexpected error occurred processing '" +:+ base_filename
            +:+ "': " +:+ str_exn e);;
     mret false).

(** Lines 113-120. *)
Definition main (filename : string) (quality : option Z) : py unit :=
  let args := parse_args filename quality in
  if negb ((1 <=? args_quality args)%Z && (args_quality args <=? 100)%Z) then
    print "Error: Quality must be between 1 and 100."
  else
    convert_webp_to_png_and_jpeg (args_filename args) (args_quality args);;
    mret tt.

End Script.

End Fallible.

(** A console that takes every line: the setting of the first model. *)
Definition reliable_console : Console := {| console_fault := λ _ _, None |}.

(** A console whose encoding is ASCII: it raises on any other byte. *)
Definition is_ascii_char (c : ascii) : bool :=
  match c with Ascii _ _ _ _ _ _ _ high => negb high end.

Fixpoint is_ascii_line (line : string) : bool :=
  match line with
  | EmptyString => true
  | String c rest => is_ascii_char c && is_ascii_line rest
  end.

Definition ascii_console : Console := {|
  console_fault := λ _ line,
    if is_ascii_line line then None
    else Some (Exn "UnicodeEncodeError" "'ascii' codec can't encode character")
|}.

(** A file name that starts with an accented letter (two bytes in UTF-8). *)
Definition accented_name : string :=
  String (ascii_of_nat 195) (String (ascii_of_nat 169) "t.webp").

(** * Properties *)

(** ** Strings and paths *)

Module StrFacts.
Import Str.

Lemma app_cons (c : ascii) (s t : string) :
  String c s +:+ t = String c (s +:+ t).
Proof. reflexivity. Qed.

Lemma app_nil_r (s : string) : s +:+ "" = s.
Proof. induction s as [|c s IH]; [done|]. by rewrite app_cons, IH. Qed.

Lemma app_assoc (s t u : string) : (s +:+ t) +:+ u = s +:+ t +:+ u.
Proof. induction s as [|c s IH]; [done|]. by rewrite !app_cons, IH. Qed.

Lemma length_app (s t : string) :
  String.length (s +:+ t) = (String.length s + String.length t)%nat.
Proof. induction s as [|c s IH]; [done|]. rewrite app_cons. cbn. by rewrite IH. Qed.

Lemma rev_app_spec (s acc : string) :
  String.rev_app s acc = String.rev s +:+ acc.
Proof.
  revert acc. induction s as [|c s IH]; intros acc; [done|].
  unfold String.rev. cbn. rewrite (IH (String c "")), IH.
  by rewrite app_assoc.
Qed.

Lemma rev_app_distr (s t : string) :
  String.rev (s +:+ t) = String.rev t +:+ String.rev s.
Proof.
  induction s as [|c s IH].
  - change (String.rev "") with "". by rewrite app_nil_r.
  - change (String c s +:+ t) with (String c (s +:+ t)).
    unfold String.rev at 1 3. cbn. rewrite !rev_app_spec, IH.
    by rewrite app_assoc.
Qed.

Lemma startswith_app (p s : string) : startswith (p +:+ s) p = true.
Proof.
  induction p as [|c p IH]; [done|].
  rewrite app_cons. cbn. by rewrite Ascii.eqb_refl.
Qed.

(** A string ends with whatever was appended to it last. *)
Lemma endswith_app (s suffix : string) : endswith (s +:+ suffix) suffix = true.
Proof. unfold endswith. rewrite rev_app_distr. apply startswith_app. Qed.

Lemma substring_prefix (s t : string) :
  String.substring 0 (String.length s) (s +:+ t) = s.
Proof.
  induction s as [|c s IH].
  - by destruct t.
  - rewrite app_cons. cbn. by rewrite IH.
Qed.

(** Cutting off as many characters as were appended gives the stem back. *)
Lemma drop_last_app (s suffix : string) :
  drop_last (String.length suffix) (s +:+ suffix) = s.
Proof.
  unfold drop_last. rewrite length_app.
  replace (String.length s + String.length suffix - String.length suffix)%nat
    with (String.length s) by lia.
  apply substring_prefix.
Qed.

(** Whether [s + ext] is absolute does not depend on a relative [ext]. *)
Lemma startswith_sep_app (s ext ext' : string) :
  startswith ext "/" = false → startswith ext' "/" = false →
  startswith (s +:+ ext) "/" = startswith (s +:+ ext') "/".
Proof.
  intros He He'. destruct s as [|c s].
  - change ("" +:+ ext) with ext. change ("" +:+ ext') with ext'. congruence.
  - by rewrite !app_cons.
Qed.

End StrFacts.

(** The output folder is prepended to every relative name. *)
Lemma os_path_join_outputs (name : string) :
  os_path_join OUTPUT_FOLDER name =
  if Str.startswith name "/" then name else "outputs/" +:+ name.
Proof. unfold os_path_join. by destruct (Str.startswith name "/"). Qed.

Lemma os_path_join_inputs (name : string) :
  os_path_join INPUT_FOLDER name =
  if Str.startswith name "/" then name else "inputs/" +:+ name.
Proof. unfold os_path_join. by destruct (Str.startswith name "/"). Qed.

(** Without the suffix the name is its own stem; with it, the stem is what
    precedes it. *)
Lemma str_core_filename_plain (s : string) :
  Str.endswith s ".webp" = false → str_core_filename s = s.
Proof. unfold str_core_filename. by intros ->. Qed.

Lemma str_core_filename_webp (s : string) :
  str_core_filename (s +:+ ".webp") = s.
Proof.
  unfold str_core_filename. rewrite StrFacts.endswith_app.
  apply (StrFacts.drop_last_app s ".webp").
Qed.

(** The two outputs of one call never share a path. *)
Lemma output_paths_distinct (base_filename : string) :
  output_png_path base_filename ≠ output_jpg_path base_filename.
Proof.
  unfold output_png_path, output_jpg_path. rewrite !os_path_join_outputs.
  rewrite (StrFacts.startswith_sep_app _ ".png" ".jpg") by done.
  destruct (Str.startswith _ "/"); intros Heq.
  - by apply (inj (String.app _)) in Heq.
  - apply (inj (String.app "outputs/")) in Heq.
    by apply (inj (String.app _)) in Heq.
Qed.

(** ** The two attempts *)

(** Unfolds the monadic plumbing of a script fragment. *)
Ltac py_unfold :=
  unfold try_except, print, lift;
  cbv [mbind mret py_bind py_ret result_bind result_ret]; cbn beta iota.

Section Attempts.
Context `{Platform}.

Implicit Types (img : Image) (w : World) (e : exn).

(** The PNG block is one encoder call, on the decoded image itself, whose
    verdict becomes the flag; nothing gets out of the block but that. *)
Lemma png_conversion_eq img (p : string) w :
  png_conversion img p w =
  let w0 := logged ("Converting to PNG -> '" +:+ p +:+ "'") w in
  match pil_encode img "PNG" None w0 p with
  | Written data =>
      (Ret true,
       logged " -> PNG conversion successful."
         (mkWorld (<[p := data]> (files w0)) (dirs w0) (stdout w0)))
  | Aborted e residue =>
      (Ret false,
       logged (" !! Error converting to PNG: " +:+ str_exn e)
         (mkWorld (partial_alter (λ _, residue) p (files w0)) (dirs w0) (stdout w0)))
  end.
Proof.
  unfold png_conversion, png_attempt, Image_save. py_unfold.
  by destruct (pil_encode _ _ _ _ _).
Qed.

Lemma png_conversion_total img (p : string) w :
  ∃ (png_success : bool) (w' : World),
    png_conversion img p w = (Ret png_success, w').
Proof.
  rewrite png_conversion_eq. cbv zeta.
  destruct (pil_encode _ _ _ _ _); eauto.
Qed.


(** The source selection follows the three-way rule, and only prints. *)
Lemma jpeg_source_eq img w :
  ∃ r : result Image,
    jpeg_rule img r
    ∧ ∃ w0, jpeg_source img w = (r, w0)
            ∧ files w0 = files w ∧ dirs w0 = dirs w
            ∧ (mode img ≠ "RGBA" → w0 = w).
Proof.
  unfold jpeg_source. py_unfold.
  case_bool_decide as Hrgba; [|case_bool_decide as Hrgb].
  - exists (composite_on_white img). split; [by constructor|].
    exists (logged "   (Input has transparency, adding white background for JPEG)" w).
    split; [|done].
    unfold composite_on_white, white_canvas, alpha_channel.
    cbv [mbind result_bind].
    destruct (pil_new _ _ _) as [bg|]; [|done].
    destruct (pil_split img) as [bands|]; [|done].
    destruct (tuple_index bands 3) as [alpha|]; [|done].
    by destruct (pil_paste bg img alpha).
  - exists (pil_convert img "RGB"). split; [by constructor|]. by exists w.
  - exists (Ret img). split; [|by exists w].
    constructor. by destruct (decide (mode img = "RGB")).
Qed.

(** The JPEG block is the selection followed by one encoder call on the
    selected image, with the caller's quality. *)
Lemma jpeg_conversion_eq img (p : string) (q : Z) w :
  ∃ (r : result Image) (w0 : World),
    jpeg_rule img r
    ∧ files w0 = files w ∧ dirs w0 = dirs w
    ∧ jpeg_conversion img p q w = jpeg_encoded r p q w0.
Proof.
  unfold jpeg_conversion, jpeg_attempt. py_unfold.
  match goal with |- context [jpeg_source img ?w1] =>
    destruct (jpeg_source_eq img w1) as (r & Hrule & w0 & Hsrc & Hf & Hd & _);
    rewrite Hsrc end.
  exists r, w0. split_and!; [done..|].
  destruct r as [src|e]; [|done].
  unfold jpeg_encoded, Image_save.
  by destruct (pil_encode _ _ _ _ _).
Qed.

Lemma jpeg_conversion_total img (p : string) (q : Z) w :
  ∃ (jpg_success : bool) (w' : World),
    jpeg_conversion img p q w = (Ret jpg_success, w').
Proof.
  destruct (jpeg_conversion_eq img p q w) as (r & w0 & _ & _ & _ & ->).
  destruct r as [src|e]; cbn; [|eauto].
  destruct (pil_encode _ _ _ _ _); eauto.
Qed.


(** Each block leaves the directories alone and touches no file but its
    own target. *)
Lemma png_conversion_frame img (p : string) w (r : result bool) (w' : World) :
  png_conversion img p w = (r, w') →
  dirs w' = dirs w ∧ ∀ p', p' ≠ p → files w' !! p' = files w !! p'.
Proof.
  rewrite png_conversion_eq. cbv zeta.
  destruct (pil_encode _ _ _ _ _); intros [= <- <-]; (split; [done|]);
    intros p' Hne; cbn.
  - by rewrite lookup_insert_ne.
  - by rewrite lookup_partial_alter_ne.
Qed.

Lemma jpeg_conversion_frame img (p : string) (q : Z) w
    (r : result bool) (w' : World) :
  jpeg_conversion img p q w = (r, w') →
  dirs w' = dirs w ∧ ∀ p', p' ≠ p → files w' !! p' = files w !! p'.
Proof.
  destruct (jpeg_conversion_eq img p q w) as (src & w0 & _ & Hf & Hd & ->).
  unfold jpeg_encoded. destruct src as [src|e].
  - destruct (pil_encode _ _ _ _ _); intros [= <- <-]; cbn;
      (split; [done|]); intros p' Hne.
    + by rewrite lookup_insert_ne, Hf.
    + by rewrite lookup_partial_alter_ne, Hf.
  - intros [= <- <-]; cbn. split; [done|]. intros. by rewrite Hf.
Qed.

End Attempts.

(** ** One whole conversion, stage by stage *)

Section Conversion.
Context `{Platform}.

Implicit Types (img : Image) (w : World) (e : exn) (q : Z).

Lemma Image_open_world (fp : string) w (r : result Image) (w' : World) :
  Image_open fp w = (r, w') → w' = w.
Proof.
  unfold Image_open. destruct (os_read_fault w fp); [by intros [= _ <-]|].
  by destruct (files w !! fp); intros [= _ <-].
Qed.

Lemma os_makedirs_files (name : string) (exist_ok : bool) w
    (r : result unit) (w' : World) :
  os_makedirs name exist_ok w = (r, w') →
  files w' = files w ∧ stdout w' = stdout w ∧ dirs w ⊆ dirs w' ⊆ {[name]} ∪ dirs w.
Proof.
  unfold os_makedirs. destruct (os_mkdir_fault w name).
  { intros [= _ <-]. set_solver. }
  repeat case_bool_decide; try destruct exist_ok; intros [= _ <-]; cbn; set_solver.
Qed.

(** Line 40 sends a missing input straight to [return False]. *)
Lemma convert_missing (b : string) q w :
  files w !! input_path b = None →
  convert_webp_to_png_and_jpeg b q w =
  (Ret false, logged ("Error: Input file not found at '" +:+ input_path b +:+ "'") w).
Proof.
  intros Hnone. unfold convert_webp_to_png_and_jpeg, os_path_isfile. py_unfold.
  rewrite Hnone. rewrite bool_decide_false by (by intros [? ?]). done.
Qed.

(** A failure of [os.makedirs] reaches the outer handler. *)
Lemma convert_mkdir_raises (b : string) q w e (w1 : World) :
  is_Some (files w !! input_path b) →
  os_makedirs OUTPUT_FOLDER true (processing b w) = (Raise e, w1) →
  convert_webp_to_png_and_jpeg b q w = (Ret false, logged (unexpected_line b e) w1).
Proof.
  intros Hsome Hmk. unfold convert_webp_to_png_and_jpeg, os_path_isfile. py_unfold.
  rewrite bool_decide_true by done. cbn [negb].
  unfold processing, logged in Hmk. by rewrite Hmk.
Qed.

(** So does a failure of [Image.open]. *)
Lemma convert_open_raises (b : string) q w e (w1 : World) :
  is_Some (files w !! input_path b) →
  os_makedirs OUTPUT_FOLDER true (processing b w) = (Ret tt, w1) →
  Image_open (input_path b) w1 = (Raise e, w1) →
  convert_webp_to_png_and_jpeg b q w = (Ret false, logged (unexpected_line b e) w1).
Proof.
  intros Hsome Hmk Hopen.
  unfold convert_webp_to_png_and_jpeg, os_path_isfile. py_unfold.
  rewrite bool_decide_true by done. cbn [negb].
  unfold processing, logged in Hmk. by rewrite Hmk, Hopen.
Qed.

(** Once the image is open, the function is the PNG block, then the JPEG
    block, then the summary line and [return True]. *)
Lemma convert_attempts (b : string) q w img (w1 w2 w3 : World)
    (png_success jpg_success : bool) :
  reaches_attempts b w img w1 →
  png_conversion img (output_png_path b) w1 = (Ret png_success, w2) →
  jpeg_conversion img (output_jpg_path b) q w2 = (Ret jpg_success, w3) →
  convert_webp_to_png_and_jpeg b q w =
  (Ret true, logged (finished_line b png_success jpg_success) w3).
Proof.
  intros (Hsome & Hmk & Hopen) Hpng Hjpg.
  unfold convert_webp_to_png_and_jpeg, os_path_isfile.
  unfold try_except at 1. unfold print, lift.
  cbv [mbind mret py_bind py_ret]; cbn beta iota.
  rewrite bool_decide_true by done. cbn [negb].
  unfold processing, logged in Hmk. by rewrite Hmk, Hopen, Hpng, Hjpg.
Qed.

(** Every run either fails early or reaches the attempts. *)
Lemma stage_cases (b : string) w :
  early_failure b w ∨ ∃ img w1, reaches_attempts b w img w1.
Proof.
  destruct (files w !! input_path b) as [data|] eqn:Hin;
    [|left; by apply InputNotFound].
  assert (is_Some (files w !! input_path b)) as Hsome by (by rewrite Hin).
  destruct (os_makedirs OUTPUT_FOLDER true (processing b w)) as [[[]|e] w1] eqn:Hmk;
    [|left; by eapply UnexpectedError].
  destruct (Image_open (input_path b) w1) as [[img|e] w1'] eqn:Hopen;
    pose proof (Image_open_world _ _ _ _ Hopen) as ->.
  - right. by exists img, w1.
  - left. by eapply DecodeError.
Qed.

Lemma stages_exclusive (b : string) w img (w1 : World) :
  early_failure b w → reaches_attempts b w img w1 → False.
Proof.
  intros Hfail (Hsome & Hmk & Hopen).
  destruct Hfail as [Hnone|e w1' _ Hmk'|e w1' _ Hmk' Hopen'].
  - rewrite Hnone in Hsome. by destruct Hsome.
  - congruence.
  - rewrite Hmk in Hmk'. injection Hmk' as <-. congruence.
Qed.

Lemma early_failure_false (b : string) q w :
  early_failure b w →
  ∃ w', convert_webp_to_png_and_jpeg b q w = (Ret false, w')
        ∧ files w' = files w ∧ dirs w ⊆ dirs w' ⊆ {[OUTPUT_FOLDER]} ∪ dirs w.
Proof.
  intros [Hnone|e w1 Hsome Hmk|e w1 Hsome Hmk Hopen].
  - rewrite (convert_missing _ _ _ Hnone). eexists; split; [done|]. cbn. set_solver.
  - rewrite (convert_mkdir_raises _ _ _ _ _ Hsome Hmk). eexists; split; [done|].
    apply os_makedirs_files in Hmk as (Hf & _ & Hd). cbn in *. by rewrite Hf.
  - rewrite (convert_open_raises _ _ _ _ _ Hsome Hmk Hopen). eexists; split; [done|].
    apply os_makedirs_files in Hmk as (Hf & _ & Hd). cbn in *. by rewrite Hf.
Qed.

(** What a run that reaches the attempts looks like, for any quality. *)
Lemma attempts_run (b : string) q w img (w1 : World) :
  reaches_attempts b w img w1 →
  ∃ (png_success : bool) (w2 : World) (jpg_success : bool) (w3 : World),
    png_conversion img (output_png_path b) w1 = (Ret png_success, w2)
    ∧ jpeg_conversion img (output_jpg_path b) q w2 = (Ret jpg_success, w3)
    ∧ convert_webp_to_png_and_jpeg b q w =
      (Ret true, logged (finished_line b png_success jpg_success) w3).
Proof.
  intros Hreach.
  destruct (png_conversion_total img (output_png_path b) w1) as (png & w2 & Hpng).
  destruct (jpeg_conversion_total img (output_jpg_path b) q w2) as (jpg & w3 & Hjpg).
  exists png, w2, jpg, w3. split_and!; [done..|].
  by eapply convert_attempts.
Qed.

End Conversion.

(** ** The return value and the error paths *)

Section Outcome.
Context `{Platform}.

Implicit Types (img : Image) (w : World) (e : exn) (q : Z).




End Outcome.

(** ** The per-format attempts *)

Section Formats.
Context `{Platform}.

Implicit Types (img : Image) (w : World) (e : exn) (q : Z).

Lemma jpeg_rule_functional img (r r' : result Image) :
  jpeg_rule img r → jpeg_rule img r' → r' = r.
Proof. intros [] []; congruence. Qed.

(** C2. The image given to the JPEG encoder is chosen by the three-way
    rule and by nothing else: for mode RGBA the decoded image pasted, through
    its own fourth band as mask, onto a fresh white RGB canvas of its size;
    for any other mode but RGB the result of [convert('RGB')]; for RGB the
    decoded image itself.  The JPEG block is the encoder applied to that
    image, in a world with the same files and directories. *)
Theorem jpeg_source_three_way_rule img (p : string) q w :
  ∃ (r : result Image) (w0 : World),
    jpeg_rule img r
    ∧ (∀ r', jpeg_rule img r' → r' = r)
    ∧ (mode img = "RGBA" → r = composite_on_white img)
    ∧ (mode img ≠ "RGBA" → mode img ≠ "RGB" → r = pil_convert img "RGB")
    ∧ (mode img = "RGB" → r = Ret img)
    ∧ files w0 = files w ∧ dirs w0 = dirs w
    ∧ jpeg_conversion img p q w = jpeg_encoded r p q w0.
Proof.
  destruct (jpeg_conversion_eq img p q w) as (r & w0 & Hrule & Hf & Hd & Heq).
  exists r, w0. split_and!; try done.
  - intros r'. by apply jpeg_rule_functional.
  - intros Hm. apply (jpeg_rule_functional img); [by constructor|done].
  - intros Hm Hm'. apply (jpeg_rule_functional img); [by constructor|done].
  - intros Hm. apply (jpeg_rule_functional img); [by constructor|done].
Qed.


(** C10. Two runs that differ only in the quality agree on the PNG side.
    They return the same value and leave the same contents at the PNG path.
    A run that fails early does not look at the quality at all.  A run that
    reaches the attempts has one PNG block, with one flag and one resulting
    world, whatever the quality; the quality enters the JPEG block only, and
    that block leaves the file at the PNG path alone. *)
Theorem png_step_independent_of_quality (b : string) (q1 q2 : Z) w :
  (convert_webp_to_png_and_jpeg b q1 w).1 = (convert_webp_to_png_and_jpeg b q2 w).1
  ∧ files (convert_webp_to_png_and_jpeg b q1 w).2 !! output_png_path b
    = files (convert_webp_to_png_and_jpeg b q2 w).2 !! output_png_path b
  ∧ (early_failure b w →
       convert_webp_to_png_and_jpeg b q1 w = convert_webp_to_png_and_jpeg b q2 w)
  ∧ (∀ img w1, reaches_attempts b w img w1 →
       ∃ (png_success : bool) (w2 : World),
         png_conversion img (output_png_path b) w1 = (Ret png_success, w2)
         ∧ ∀ q, ∃ (jpg_success : bool) (w3 : World),
             jpeg_conversion img (output_jpg_path b) q w2 = (Ret jpg_success, w3)
             ∧ files w3 !! output_png_path b = files w2 !! output_png_path b
             ∧ convert_webp_to_png_and_jpeg b q w =
               (Ret true, logged (finished_line b png_success jpg_success) w3)).
Proof.
  assert (early_failure b w →
          convert_webp_to_png_and_jpeg b q1 w = convert_webp_to_png_and_jpeg b q2 w)
    as Hearly.
  { intros [Hnone|e w1 Hsome Hmk|e w1 Hsome Hmk Hopen].
    - by rewrite !(convert_missing _ _ _ Hnone).
    - by rewrite !(convert_mkdir_raises _ _ _ _ _ Hsome Hmk).
    - by rewrite !(convert_open_raises _ _ _ _ _ Hsome Hmk Hopen). }
  assert (∀ img w1, reaches_attempts b w img w1 →
       ∃ (png_success : bool) (w2 : World),
         png_conversion img (output_png_path b) w1 = (Ret png_success, w2)
         ∧ ∀ q, ∃ (jpg_success : bool) (w3 : World),
             jpeg_conversion img (output_jpg_path b) q w2 = (Ret jpg_success, w3)
             ∧ files w3 !! output_png_path b = files w2 !! output_png_path b
             ∧ convert_webp_to_png_and_jpeg b q w =
               (Ret true, logged (finished_line b png_success jpg_success) w3))
    as Hlate.
  { intros img w1 Hreach.
    destruct (png_conversion_total img (output_png_path b) w1) as (png & w2 & Hpng).
    exists png, w2. split; [done|]. intros q.
    destruct (jpeg_conversion_total img (output_jpg_path b) q w2) as (jpg & w3 & Hjpg).
    exists jpg, w3. split_and!; [done| |by eapply convert_attempts].
    apply jpeg_conversion_frame in Hjpg as [_ Hframe].
    apply Hframe, output_paths_distinct. }
  split_and!; [| |done|done].
  - destruct (stage_cases b w) as [Hfail|(img & w1 & Hreach)].
    + by rewrite (Hearly Hfail).
    + destruct (Hlate img w1 Hreach) as (png & w2 & _ & Hq).
      destruct (Hq q1) as (? & ? & _ & _ & ->).
      destruct (Hq q2) as (? & ? & _ & _ & ->). done.
  - destruct (stage_cases b w) as [Hfail|(img & w1 & Hreach)].
    + by rewrite (Hearly Hfail).
    + destruct (Hlate img w1 Hreach) as (png & w2 & _ & Hq).
      destruct (Hq q1) as (? & ? & _ & Hf1 & ->).
      destruct (Hq q2) as (? & ? & _ & Hf2 & ->). cbn. by rewrite Hf1, Hf2.
Qed.

End Formats.

(** ** File names *)

Lemma startswith_sep_stem (s ext : string) :
  Str.startswith ext "/" = false →
  Str.startswith (s +:+ ext) "/" = Str.startswith s "/".
Proof.
  intros Hext. destruct s as [|c s]; [done|]. by rewrite StrFacts.app_cons.
Qed.

(** C6 (as amended). For a stem [s] that does not itself end in [.webp],
    the calls with [s] and with [s + ".webp"] compute the same two output
    paths, [os.path.join("outputs", s + ".png")] and the same with [.jpg];
    these are [outputs/<s>.png] and [outputs/<s>.jpg] whenever [s] does not
    begin with a slash. *)
Theorem output_paths_suffix_invariant (s : string) :
  Str.endswith s ".webp" = false →
  output_png_path (s +:+ ".webp") = output_png_path s
  ∧ output_jpg_path (s +:+ ".webp") = output_jpg_path s
  ∧ output_png_path s = os_path_join OUTPUT_FOLDER (s +:+ ".png")
  ∧ output_jpg_path s = os_path_join OUTPUT_FOLDER (s +:+ ".jpg")
  ∧ (Str.startswith s "/" = false →
       output_png_path s = "outputs/" +:+ s +:+ ".png"
       ∧ output_jpg_path s = "outputs/" +:+ s +:+ ".jpg").
Proof.
  intros Hplain. unfold output_png_path, output_jpg_path.
  rewrite str_core_filename_webp, (str_core_filename_plain s Hplain).
  split_and!; try done.
  intros Hrel. rewrite !os_path_join_outputs.
  by rewrite !startswith_sep_stem, Hrel.
Qed.

(** C6, the claim as first stated, fails for a stem that ends in [.webp]:
    the suffix is cut once from either name, so the two calls write to
    different files, and the call with the stem itself does not write to
    [outputs/<stem>.png].  It also fails for an absolute stem, which
    [os.path.join] does not put under the output folder. *)
Lemma output_paths_webp_stem_counterexample :
  output_png_path "a.webp" = "outputs/a.png"
  ∧ output_png_path ("a.webp" +:+ ".webp") = "outputs/a.webp.png"
  ∧ output_png_path "a.webp" ≠ output_png_path ("a.webp" +:+ ".webp")
  ∧ output_jpg_path "a.webp" ≠ output_jpg_path ("a.webp" +:+ ".webp")
  ∧ output_png_path "a.webp" ≠ "outputs/" +:+ "a.webp" +:+ ".png"
  ∧ output_png_path "/tmp/x" = "/tmp/x.png"
  ∧ output_png_path "/tmp/x" ≠ "outputs/" +:+ "/tmp/x" +:+ ".png".
Proof. by split_and!. Qed.

(** C7. The input is looked up at [os.path.join("inputs", base_filename)],
    with the name as given: for a relative name, [inputs/] followed by the
    name, suffix or not.  The call can return [True] only when a file with
    that exact path exists.  A name without the suffix is its own output stem,
    and the call with it returns [False] when no file of exactly that name is
    there, whatever else is in the folder. *)
Theorem input_path_uses_raw_name (b : string) :
  input_path b = os_path_join INPUT_FOLDER b
  ∧ (Str.startswith b "/" = false → input_path b = "inputs/" +:+ b)
  ∧ (∀ (P : Platform) (q : Z) (w : World),
       (convert_webp_to_png_and_jpeg b q w).1 = Ret true →
       is_Some (files w !! os_path_join INPUT_FOLDER b))
  ∧ (Str.endswith b ".webp" = false →
       str_core_filename b = b
       ∧ output_png_path b = os_path_join OUTPUT_FOLDER (b +:+ ".png")
       ∧ output_jpg_path b = os_path_join OUTPUT_FOLDER (b +:+ ".jpg")
       ∧ ∀ (P : Platform) (q : Z) (w : World),
           files w !! os_path_join INPUT_FOLDER b = None →
           (convert_webp_to_png_and_jpeg b q w).1 = Ret false).
Proof.
  split_and!.
  - done.
  - intros Hrel. unfold input_path. by rewrite os_path_join_inputs, Hrel.
  - intros P q w Htrue.
    destruct (files w !! os_path_join INPUT_FOLDER b) eqn:Hin; [done|].
    by rewrite (convert_missing b q w Hin) in Htrue.
  - intros Hplain. unfold output_png_path, output_jpg_path.
    rewrite (str_core_filename_plain b Hplain). split_and!; try done.
    intros P q w Hnone. by rewrite (convert_missing b q w Hnone).
Qed.

(** ** Defaults of the quality *)

(** C8. Called without a quality the function runs with 85; the command
    line without [-q] calls it with 100.  A quality that is given is passed
    on by both. *)
Theorem quality_defaults_differ `{Platform} (b : string) :
  call_convert b None = convert_webp_to_png_and_jpeg b 85
  ∧ main b None = (convert_webp_to_png_and_jpeg b 100;; mret tt)
  ∧ (∀ q : Z, call_convert b (Some q) = convert_webp_to_png_and_jpeg b q)
  ∧ (∀ q : Z, (1 ≤ q ≤ 100)%Z →
       main b (Some q) = (convert_webp_to_png_and_jpeg b q;; mret tt))
  ∧ quality_default ≠ args_quality (parse_args b None).
Proof.
  split_and!; try done.
  intros q [Hlo Hhi]. unfold main, parse_args. cbn [args_quality args_filename default].
  change (id q) with q. apply Z.leb_le in Hlo, Hhi. by rewrite Hlo, Hhi.
Qed.

(** ** The script at work on the toy platform *)

Section Runs.
Import Raster.

(** A transparent pixel comes out white in the JPEG and an opaque one
    keeps its colour; the PNG is the input raster. *)
Example logo_run :
  let run := convert_webp_to_png_and_jpeg "logo.webp" 90 world0 in
  run.1 = Ret true
  ∧ files run.2 !! "outputs/logo.png" = Some logo_bytes
  ∧ files run.2 !! "outputs/logo.jpg"
    = Some (byte_of_Z <$> [90; 3; 1; 2;  255; 255; 255;  0; 0; 255]%Z)
  ∧ "outputs" ∈ dirs run.2.
Proof. vm_compute. by split_and!. Qed.

(** A PNG that cannot be written does not stop the JPEG, nor the [True]. *)
Example png_blocked_run :
  let run := convert_webp_to_png_and_jpeg "logo.webp" 90 world_png_blocked in
  run.1 = Ret true
  ∧ files run.2 !! "outputs/logo.png" = None
  ∧ is_Some (files run.2 !! "outputs/logo.jpg")
  ∧ last (stdout run.2) = Some "Finished processing 'logo.webp'. PNG: Failed, JPEG: OK".
Proof. vm_compute. split_and!; by eauto. Qed.

(** The name without its suffix is looked up as it is, and not found, even
    though [inputs/logo.webp] is there. *)
Example logo_without_suffix_run :
  convert_webp_to_png_and_jpeg "logo" 90 world0
  = (Ret false, logged "Error: Input file not found at 'inputs/logo'" world0).
Proof. by vm_compute. Qed.

(** The two defaults are visible in the JPEG that is written. *)
Example default_quality_run :
  head <$> files (call_convert "photo.webp" None world0).2 !! "outputs/photo.jpg"
    = Some (Some (byte_of_Z 85))
  ∧ head <$> files (main "photo.webp" None world0).2 !! "outputs/photo.jpg"
    = Some (Some (byte_of_Z 100)).
Proof. by vm_compute. Qed.

End Runs.

(** ** Instances of the conditional theorems *)




(** C6 (as amended) for the stem [photo]. *)
Lemma output_paths_suffix_invariant_witness :
  Str.endswith "photo" ".webp" = false
  ∧ output_png_path ("photo" +:+ ".webp") = output_png_path "photo"
  ∧ output_jpg_path ("photo" +:+ ".webp") = output_jpg_path "photo"
  ∧ output_png_path "photo" = os_path_join OUTPUT_FOLDER ("photo" +:+ ".png")
  ∧ output_jpg_path "photo" = os_path_join OUTPUT_FOLDER ("photo" +:+ ".jpg")
  ∧ (Str.startswith "photo" "/" = false →
       output_png_path "photo" = "outputs/" +:+ "photo" +:+ ".png"
       ∧ output_jpg_path "photo" = "outputs/" +:+ "photo" +:+ ".jpg").
Proof.
  split; [reflexivity|].
  apply (output_paths_suffix_invariant "photo"). reflexivity.
Defined.

(** * Further properties of the script *)

(** ** More on file names (lines 26-36) *)

Lemma startswith_inv (s p : string) :
  Str.startswith s p = true → ∃ t, s = p +:+ t.
Proof.
  revert s. induction p as [|c p IH]; intros s; [by exists s|].
  destruct s as [|d s]; [done|]. cbn.
  destruct (Ascii.eqb_spec c d) as [->|]; [|done].
  intros [t ->]%IH. exists t. by rewrite StrFacts.app_cons.
Qed.

Lemma rev_cons (c : ascii) (s : string) :
  String.rev (String c s) = String.rev s +:+ String c "".
Proof. unfold String.rev at 1. cbn. apply StrFacts.rev_app_spec. Qed.

Lemma rev_involutive (s : string) : String.rev (String.rev s) = s.
Proof.
  induction s as [|c s IH]; [done|].
  by rewrite rev_cons, StrFacts.rev_app_distr, IH.
Qed.

(** A string that ends with a suffix is what precedes it, then the suffix. *)
Lemma endswith_inv (s suffix : string) :
  Str.endswith s suffix = true →
  Str.drop_last (String.length suffix) s +:+ suffix = s.
Proof.
  unfold Str.endswith. intros [t Ht]%startswith_inv.
  assert (s = String.rev t +:+ suffix) as ->.
  { rewrite <-(rev_involutive s), Ht, StrFacts.rev_app_distr.
    by rewrite rev_involutive. }
  by rewrite StrFacts.drop_last_app.
Qed.

(** X5. The output stem is the name with one trailing [.webp] removed:
    either the name is the stem followed by [.webp], or it does not end in
    [.webp] and is its own stem.  Names shorter than the suffix are always
    their own stem. *)
Theorem str_core_filename_spec (b : string) :
  (Str.endswith b ".webp" = true ∧ b = str_core_filename b +:+ ".webp"
   ∨ Str.endswith b ".webp" = false ∧ str_core_filename b = b)
  ∧ (String.length (str_core_filename b) ≤ String.length b)%nat
  ∧ ((String.length b < 5)%nat → str_core_filename b = b).
Proof.
  unfold str_core_filename.
  destruct (Str.endswith b ".webp") eqn:Hends.
  - pose proof (endswith_inv b ".webp" Hends) as Hb.
    change (String.length ".webp") with 5%nat in Hb.
    assert (String.length b = String.length (Str.drop_last 5 b) + 5)%nat as Hlen.
    { rewrite <-Hb at 1. by rewrite StrFacts.length_app. }
    split_and!; [by left|lia|lia].
  - split_and!; [by right|done|done].
Qed.

Lemma startswith_sep_core (b : string) :
  Str.startswith (str_core_filename b) "/" = true → Str.startswith b "/" = true.
Proof.
  destruct (str_core_filename_spec b) as [[[_ Hb]|[_ ->]] _]; [|done].
  intros Hcore. rewrite Hb. by rewrite startswith_sep_stem.
Qed.

Lemma os_path_join_outputs_inj (x y : string) :
  os_path_join OUTPUT_FOLDER x = os_path_join OUTPUT_FOLDER y → x = y.
Proof.
  rewrite !os_path_join_outputs.
  destruct (Str.startswith x "/") eqn:Hx, (Str.startswith y "/") eqn:Hy; try done.
  - apply startswith_inv in Hx as [t ->]. by rewrite StrFacts.app_cons.
  - apply startswith_inv in Hy as [t ->]. by rewrite (StrFacts.app_cons _ _ t).
  - by intros ?%(inj (String.app _)).
Qed.

Lemma png_jpg_names_differ (s t : string) : s +:+ ".png" ≠ t +:+ ".jpg".
Proof.
  intros Heq%(f_equal String.rev). rewrite !StrFacts.rev_app_distr in Heq.
  change (String.rev ".png") with "gnp." in Heq.
  change (String.rev ".jpg") with "gpj." in Heq.
  by rewrite !StrFacts.app_cons in Heq.
Qed.

(** X6. Which names are given the same output paths: the PNG path computed
    for one name is never the JPEG path computed for another (or for the
    same), and two names get the same PNG path, or the same JPEG path,
    exactly when they have the same stem.  (Paths are compared as strings.) *)
Theorem output_paths_collide_iff_same_stem (b1 b2 : string) :
  output_png_path b1 ≠ output_jpg_path b2
  ∧ (output_png_path b1 = output_png_path b2
       ↔ str_core_filename b1 = str_core_filename b2)
  ∧ (output_jpg_path b1 = output_jpg_path b2
       ↔ str_core_filename b1 = str_core_filename b2).
Proof.
  unfold output_png_path, output_jpg_path. split_and!.
  - intros Heq%os_path_join_outputs_inj. by apply png_jpg_names_differ in Heq.
  - split; [|by intros ->].
    intros Heq%os_path_join_outputs_inj.
    apply (f_equal String.rev) in Heq. rewrite !StrFacts.rev_app_distr in Heq.
    apply (inj (String.app _)) in Heq.
    by rewrite <-(rev_involutive (str_core_filename b1)), Heq, rev_involutive.
  - split; [|by intros ->].
    intros Heq%os_path_join_outputs_inj.
    apply (f_equal String.rev) in Heq. rewrite !StrFacts.rev_app_distr in Heq.
    apply (inj (String.app _)) in Heq.
    by rewrite <-(rev_involutive (str_core_filename b1)), Heq, rev_involutive.
Qed.

(** The input is never one of the outputs. *)
Lemma input_path_not_output (b ext : string) :
  String.length ext = 4%nat → Str.startswith ext "/" = false →
  input_path b ≠ os_path_join OUTPUT_FOLDER (str_core_filename b +:+ ext).
Proof.
  intros Hlen Hext. unfold input_path.
  rewrite os_path_join_inputs, os_path_join_outputs, startswith_sep_stem by done.
  destruct (Str.startswith (str_core_filename b) "/") eqn:Hcore.
  - rewrite (startswith_sep_core b Hcore). intros Heq%(f_equal String.length).
    rewrite StrFacts.length_app, Hlen in Heq.
    destruct (str_core_filename_spec b) as [[[_ Hb]|[_ Hb]] _].
    + rewrite Hb, StrFacts.length_app in Heq at 1. cbn in Heq. lia.
    + rewrite Hb in Heq. lia.
  - destruct (Str.startswith b "/") eqn:Hb.
    + apply startswith_inv in Hb as [t ->]. by rewrite (StrFacts.app_cons _ _ t).
    + by rewrite !(StrFacts.app_cons "i"), !(StrFacts.app_cons "o").
Qed.

(** ** What one call changes (lines 38-94) *)

Section Footprint.
Context `{Platform}.

Implicit Types (img : Image) (w : World) (e : exn) (q : Z).

Lemma os_makedirs_ok (name : string) w (w1 : World) :
  os_makedirs name true w = (Ret tt, w1) →
  dirs w1 = {[name]} ∪ dirs w ∧ files w1 = files w.
Proof.
  unfold os_makedirs. destruct (os_mkdir_fault w name); [done|].
  case_bool_decide as Hin; [|case_bool_decide]; intros [= Hw1]; subst w1; cbn.
  - split; [|done]. symmetry. apply subseteq_union_1_L.
    by apply singleton_subseteq_l.
  - done.
Qed.

(** X1. Whatever the outcome, a call removes no directory and adds none but
    the output folder. *)
Theorem convert_directories_footprint (b : string) q w :
  dirs w ⊆ dirs (convert_webp_to_png_and_jpeg b q w).2
  ∧ dirs (convert_webp_to_png_and_jpeg b q w).2 ⊆ {[OUTPUT_FOLDER]} ∪ dirs w.
Proof.
  destruct (stage_cases b w) as [Hfail|(img & w1 & Hreach)].
  - by destruct (early_failure_false b q w Hfail) as (w' & -> & _ & Hd1 & Hd2).
  - destruct (attempts_run b q w img w1 Hreach)
      as (png & w2 & jpg & w3 & Hpng & Hjpg & ->).
    destruct Hreach as (_ & Hmk & _).
    apply os_makedirs_ok in Hmk as [Hd1 _].
    apply png_conversion_frame in Hpng as [Hd2 _].
    apply jpeg_conversion_frame in Hjpg as [Hd3 _].
    cbn in *. rewrite Hd3, Hd2, Hd1. split; [apply union_subseteq_r|done].
Qed.

(** X2. The path the script reads from is never a path it saves to: for
    every name the input path is a different string from both output
    paths. *)
Theorem input_path_differs_from_outputs (b : string) :
  input_path b ≠ output_png_path b ∧ input_path b ≠ output_jpg_path b.
Proof. split; by apply input_path_not_output. Qed.

(** X3. Whenever the call returns [True] the output folder exists
    afterwards, and the directories are those from before plus that one,
    whether or not either encoder succeeded. *)
Theorem output_folder_exists_after_true (b : string) q w :
  (convert_webp_to_png_and_jpeg b q w).1 = Ret true →
  OUTPUT_FOLDER ∈ dirs (convert_webp_to_png_and_jpeg b q w).2
  ∧ dirs (convert_webp_to_png_and_jpeg b q w).2 = {[OUTPUT_FOLDER]} ∪ dirs w.
Proof.
  intros Htrue.
  destruct (stage_cases b w) as [Hfail|(img & w1 & Hreach)].
  { destruct (early_failure_false b q w Hfail) as (w' & Heq & _).
    by rewrite Heq in Htrue. }
  destruct (attempts_run b q w img w1 Hreach)
    as (png & w2 & jpg & w3 & Hpng & Hjpg & ->).
  destruct Hreach as (_ & Hmk & _).
  apply os_makedirs_ok in Hmk as [Hd1 _].
  apply png_conversion_frame in Hpng as [Hd2 _].
  apply jpeg_conversion_frame in Hjpg as [Hd3 _].
  cbn in *. rewrite Hd3, Hd2, Hd1. split; [|done].
  apply elem_of_union_l. by apply elem_of_singleton.
Qed.

(** X4. A flag reported as OK means the file is there: when the PNG flag is
    [True] the PNG path holds, at the end of the call, the bytes the PNG
    encoder produced from the decoded image; when the JPEG flag is [True] the
    JPEG path holds the bytes the JPEG encoder produced, at the given
    quality, from the image selected by the three-way rule. *)
Theorem ok_flag_means_file_written (b : string) q w img (w1 : World) :
  reaches_attempts b w img w1 →
  ∃ (png_success jpg_success : bool) (w' : World),
    convert_webp_to_png_and_jpeg b q w = (Ret true, w')
    ∧ last (stdout w') = Some (finished_line b png_success jpg_success)
    ∧ (png_success = true →
         ∃ (w0 : World) (data : list Byte.byte),
           files w0 = files w1
           ∧ pil_encode img "PNG" None w0 (output_png_path b) = Written data
           ∧ files w' !! output_png_path b = Some data)
    ∧ (jpg_success = true →
         ∃ (src : Image) (w0 : World) (data : list Byte.byte),
           jpeg_rule img (Ret src)
           ∧ pil_encode src "JPEG" (Some q) w0 (output_jpg_path b) = Written data
           ∧ files w' !! output_jpg_path b = Some data).
Proof.
  intros Hreach.
  destruct (attempts_run b q w img w1 Hreach)
    as (png & w2 & jpg & w3 & Hpng & Hjpg & ->).
  exists png, jpg, (logged (finished_line b png jpg) w3).
  split_and!; [done|by apply last_snoc| |].
  - intros ->. apply jpeg_conversion_frame in Hjpg as [_ Hf3].
    rewrite png_conversion_eq in Hpng. cbv zeta in Hpng.
    destruct (pil_encode _ _ _ _ _) as [data|] eqn:Henc; [|done].
    injection Hpng as <-. eexists _, data. split_and!; [|exact Henc|]; [done|].
    cbn. rewrite Hf3 by apply output_paths_distinct. cbn.
    by rewrite lookup_insert_eq.
  - intros ->.
    destruct (jpeg_conversion_eq img (output_jpg_path b) q w2)
      as (r & w0 & Hrule & _ & _ & Heq).
    rewrite Heq in Hjpg. unfold jpeg_encoded in Hjpg.
    destruct r as [src|]; [|done].
    destruct (pil_encode _ _ _ _ _) as [data|] eqn:Henc; [|done].
    injection Hjpg as <-. exists src, w0, data. split_and!; [done..|].
    cbn. by rewrite lookup_insert_eq.
Qed.


End Footprint.

(** ** Instances of the further conditional theorems *)

(** X3 on the toy platform, in the world where the PNG cannot be written. *)
Lemma output_folder_exists_after_true_witness :
  let run := convert_webp_to_png_and_jpeg "logo.webp" 90 Raster.world_png_blocked in
  run.1 = Ret true
  ∧ OUTPUT_FOLDER ∈ dirs run.2
  ∧ dirs run.2 = {[OUTPUT_FOLDER]} ∪ dirs Raster.world_png_blocked.
Proof.
  split; [by vm_compute|].
  apply (output_folder_exists_after_true "logo.webp" 90 Raster.world_png_blocked).
  by vm_compute.
Defined.

(** X4 on the toy platform, for the logo. *)
Lemma ok_flag_means_file_written_witness :
  let w := Raster.world0 in
  let w1 := (os_makedirs OUTPUT_FOLDER true (processing "logo.webp" w)).2 in
  reaches_attempts "logo.webp" w Raster.logo_image w1
  ∧ ∃ (png_success jpg_success : bool) (w' : World),
      convert_webp_to_png_and_jpeg "logo.webp" 90 w = (Ret true, w')
      ∧ last (stdout w') = Some (finished_line "logo.webp" png_success jpg_success)
      ∧ (png_success = true →
           ∃ (w0 : World) (data : list Byte.byte),
             files w0 = files w1
             ∧ pil_encode Raster.logo_image "PNG" None w0 (output_png_path "logo.webp")
               = Written data
             ∧ files w' !! output_png_path "logo.webp" = Some data)
      ∧ (jpg_success = true →
           ∃ (src : Image) (w0 : World) (data : list Byte.byte),
             jpeg_rule Raster.logo_image (Ret src)
             ∧ pil_encode src "JPEG" (Some 90%Z) w0 (output_jpg_path "logo.webp")
               = Written data
             ∧ files w' !! output_jpg_path "logo.webp" = Some data).
Proof.
  assert (reaches_attempts "logo.webp" Raster.world0 Raster.logo_image
            (os_makedirs OUTPUT_FOLDER true
               (processing "logo.webp" Raster.world0)).2) as Hreach.
  { split_and!; [by eexists|by vm_compute..]. }
  split; [exact Hreach|].
  exact (ok_flag_means_file_written "logo.webp" 90 _ _ _ Hreach).
Defined.


(** ** Failures and what they leave (lines 40-50, 64-86, 91-94) *)

Section Failures.
Context `{Platform}.

Implicit Types (img : Image) (w : World) (e : exn) (q : Z).



End Failures.



(** ** The console that can refuse *)

(** With a console that takes every line the two models are the same
    function. *)
Lemma reliable_console_agrees `{Platform} (b : string) (q : Z) :
  @Fallible.convert_webp_to_png_and_jpeg _ reliable_console b q
  = convert_webp_to_png_and_jpeg b q.
Proof. reflexivity. Qed.

Lemma reliable_console_main_agrees `{Platform} (f : string) (q : option Z) :
  @Fallible.main _ reliable_console f q = main f q.
Proof. reflexivity. Qed.

Section Escapes.
Context `{Platform} `{Console}.

Implicit Types (w : World) (e : exn) (q : Z).

(** C9 (as amended). The only exception the function lets through is one
    raised by the print of its outer handler (line 93): the call either
    returns a Boolean, or the body of the outer [try] raised, the handler
    caught that, and the handler's own print was refused.  So with a console
    that refuses nothing the call returns a Boolean, whatever the operating
    system and Pillow raise. *)
Theorem convert_raises_only_from_outer_print (b : string) q w :
  ((∃ (result : bool) (w' : World),
      Fallible.convert_webp_to_png_and_jpeg b q w = (Ret result, w'))
   ∨ (∃ e0 e (w0 : World),
        Fallible.convert_body b q w = (Raise e0, w0)
        ∧ console_fault w0 (unexpected_line b e0) = Some e
        ∧ Fallible.convert_webp_to_png_and_jpeg b q w = (Raise e, w0)))
  ∧ ((∀ w0 line, console_fault w0 line = None) →
       ∃ (result : bool) (w' : World),
         Fallible.convert_webp_to_png_and_jpeg b q w = (Ret result, w')).
Proof.
  assert ((∃ (result : bool) (w' : World),
             Fallible.convert_webp_to_png_and_jpeg b q w = (Ret result, w'))
          ∨ (∃ e0 e (w0 : World),
               Fallible.convert_body b q w = (Raise e0, w0)
               ∧ console_fault w0 (unexpected_line b e0) = Some e
               ∧ Fallible.convert_webp_to_png_and_jpeg b q w = (Raise e, w0)))
    as Hcases.
  { unfold Fallible.convert_webp_to_png_and_jpeg, try_except.
    destruct (Fallible.convert_body b q w) as [[result|e0] w0]; [by eauto|].
    cbv [mbind mret py_bind py_ret]. unfold Fallible.print.
    change ("An unexpected error occurred processing '" +:+ b +:+ "': " +:+ str_exn e0)
      with (unexpected_line b e0).
    destruct (console_fault w0 (unexpected_line b e0)) as [e|] eqn:Hfault.
    - right. by exists e0, e, w0.
    - left. eauto. }
  split; [done|]. intros Hquiet.
  destruct Hcases as [?|(e0 & e & w0 & _ & Hfault & _)]; [done|].
  by rewrite Hquiet in Hfault.
Qed.

(** X7. The command line checks the quality before anything else.  Outside
    1..100 it does nothing but print the error line: no conversion is
    started, and files and directories stay as they are.  Inside the range,
    or with the default, it is the conversion with that quality, its value
    dropped; it raises exactly when the conversion does. *)
Theorem main_validates_quality (filename : string) (quality : option Z) w :
  let q := default 100%Z quality in
  ((1 ≤ q ≤ 100)%Z →
     Fallible.main filename quality w =
     match Fallible.convert_webp_to_png_and_jpeg filename q w with
     | (Ret _, w') => (Ret tt, w')
     | (Raise e, w') => (Raise e, w')
     end)
  ∧ (¬ (1 ≤ q ≤ 100)%Z →
       Fallible.main filename quality w
       = Fallible.print "Error: Quality must be between 1 and 100." w
       ∧ files (Fallible.main filename quality w).2 = files w
       ∧ dirs (Fallible.main filename quality w).2 = dirs w).
Proof.
  cbv zeta. unfold Fallible.main, parse_args. cbn [args_quality args_filename].
  split.
  - intros [Hlo%Z.leb_le Hhi%Z.leb_le]. rewrite Hlo, Hhi. cbn [andb negb].
    cbv [mbind mret py_bind py_ret].
    by destruct (Fallible.convert_webp_to_png_and_jpeg _ _ _) as [[?|?] ?].
  - intros Hout.
    assert (negb ((1 <=? default 100%Z quality)%Z
                  && (default 100%Z quality <=? 100)%Z) = true) as ->.
    { destruct (1 <=? default 100%Z quality)%Z eqn:Hlo;
        destruct (default 100%Z quality <=? 100)%Z eqn:Hhi; try done.
      apply Z.leb_le in Hlo, Hhi. by destruct Hout. }
    split; [done|]. unfold Fallible.print.
    by destruct (console_fault _ _).
Qed.

End Escapes.

(** C9, the claim as first stated, fails when the console refuses the
    lines of the handlers.  With an ASCII console and a missing file whose
    name has an accent, the not-found line is refused inside the [try], the
    outer handler catches that, its own line is refused in turn, and the
    exception reaches the caller. *)
Lemma handler_print_raises_counterexample :
  let run := @Fallible.convert_webp_to_png_and_jpeg Raster.platform ascii_console
               accented_name 85 Raster.world0 in
  files Raster.world0 !! input_path accented_name = None
  ∧ run = (Raise (Exn "UnicodeEncodeError" "'ascii' codec can't encode character"),
           Raster.world0)
  ∧ ¬ ∃ (result : bool) (w' : World), run = (Ret result, w').
Proof.
  cbv zeta. split_and!; [by vm_compute..|].
  intros (result & w' & Hrun). by vm_compute in Hrun.
Qed.

